(** * odyssey-store: the PayMongo payment adapter and the Supabase file adapter

    A shallow embedding of [src/services/paymongo.ts] (class
    [PaymongoPaymentService]) and of the Supabase file service (class
    [SupabaseFIleService]), with the properties of the payment-status
    reconciliation stated over it.

    Conventions of the embedding:
    - a JavaScript value is a [value]; an object is its property list;
    - numbers are the integer-valued ones ([Z]): amounts in minor currency
      units and HTTP status codes;
    - an [async] method is a computation in [M]: it threads the console and
      ends in [Returned] (the promise resolves) or [Thrown] (it rejects);
    - [fetch], the cart service and the storage bucket belong to the
      environment and are taken as arguments. *)

From Stdlib Require Import ZArith String Ascii List Bool Lia.
From stdpp Require Import base option gmap strings pretty.
Import ListNotations.

Local Open Scope string_scope.
Local Open Scope Z_scope.

(** ** JavaScript values *)

(* The properties below are by case analysis; no recursor over the nested
   lists is generated. *)
#[local] Unset Elimination Schemes.

Inductive value : Type :=
| VUndefined
| VNull
| VBool (b : bool)
| VNum (n : Z)
| VStr (s : string)
| VArr (items : list value)
| VObj (fields : list (string * value)).

#[local] Set Elimination Schemes.

(** [Record<string, unknown>]: the own properties of a plain object. *)
Definition object : Type := list (string * value).

(** [o[k]] on a property list; a missing property reads as [undefined]. *)
Fixpoint assoc (k : string) (fields : object) : value :=
  match fields with
  | [] => VUndefined
  | (k', v) :: rest => if String.eqb k k' then v else assoc k rest
  end.

(** [{...o, k: v}]: the properties of [o] in their order, with [k] set to
    [v] where it stands, or added at the end. *)
Fixpoint set_prop (k : string) (v : value) (fields : object) : object :=
  match fields with
  | [] => [(k, v)]
  | (k', v') :: rest =>
      if String.eqb k k' then (k', v) :: rest else (k', v') :: set_prop k v rest
  end.

(** [v.k] for a [v] that is neither [null] nor [undefined].  The keys this
    adapter reads ([data], [id], [attributes], [amount], [status],
    [currency]) are properties of no primitive and of no array. *)
Definition get_prop (v : value) (k : string) : value :=
  match v with
  | VObj fields => assoc k fields
  | _ => VUndefined
  end.

(** [!!v] *)
Definition truthy (v : value) : bool :=
  match v with
  | VUndefined | VNull => false
  | VBool b => b
  | VNum n => negb (n =? 0)
  | VStr s => negb (String.eqb s "")
  | VArr _ | VObj _ => true
  end.

(** [a === b] where [b] is a primitive (a number or a string literal in this
    adapter): an object or array on the left is never identical to it. *)
Definition strict_eq (a b : value) : bool :=
  match a, b with
  | VUndefined, VUndefined => true
  | VNull, VNull => true
  | VBool x, VBool y => Bool.eqb x y
  | VNum x, VNum y => x =? y
  | VStr x, VStr y => String.eqb x y
  | _, _ => false
  end.

(** [Array.prototype.join] *)
Fixpoint join (sep : string) (parts : list string) : string :=
  match parts with
  | [] => ""
  | [p] => p
  | p :: rest => p +:+ sep +:+ join sep rest
  end.

(** [String.prototype.split] with a one-character separator. *)
Fixpoint split (sep : ascii) (s : string) : list string :=
  match s with
  | EmptyString => [EmptyString]
  | String c rest =>
      if Ascii.eqb c sep then EmptyString :: split sep rest
      else match split sep rest with
           | [] => [String c EmptyString]
           | seg :: segs => String c seg :: segs
           end
  end.

(** [Array.prototype.pop], for its result: the last element, [undefined] on
    an empty array. *)
Definition pop (l : list string) : value :=
  List.last (List.map VStr l) VUndefined.

(** [`${v}`]: the string a template literal puts in place of [v]. *)
Fixpoint ToString (v : value) : string :=
  match v with
  | VUndefined => "undefined"
  | VNull => "null"
  | VBool true => "true"
  | VBool false => "false"
  | VNum n => pretty n
  | VStr s => s
  | VArr items =>
      join "," (List.map (fun x => match x with
                                   | VUndefined | VNull => ""
                                   | _ => ToString x
                                   end) items)
  | VObj _ => "[object Object]"
  end.

(** [String.prototype.toLowerCase] on the ASCII range, where currency codes
    live. *)
Definition lower_ascii (c : ascii) : ascii :=
  let n := nat_of_ascii c in
  if (65 <=? n)%nat && (n <=? 90)%nat then ascii_of_nat (n + 32) else c.

Fixpoint toLowerCase (s : string) : string :=
  match s with
  | EmptyString => EmptyString
  | String c rest => String (lower_ascii c) (toLowerCase rest)
  end.

(** [String.prototype.toUpperCase] on the ASCII range. *)
Definition upper_ascii (c : ascii) : ascii :=
  let n := nat_of_ascii c in
  if (97 <=? n)%nat && (n <=? 122)%nat then ascii_of_nat (n - 32) else c.

Fixpoint toUpperCase (s : string) : string :=
  match s with
  | EmptyString => EmptyString
  | String c rest => String (upper_ascii c) (toUpperCase rest)
  end.

(** ** Errors, outcomes and the console *)

Record JsError : Type := mkError {
  name : string;
  message : string;
  stack : option string
}.

Definition TypeError (msg : string) : JsError := mkError "TypeError" msg None.
Definition Error (msg : string) : JsError := mkError "Error" msg None.

Inductive outcome (A : Type) : Type :=
| Returned (a : A)
| Thrown (e : JsError).
Arguments Returned {A} a.
Arguments Thrown {A} e.

(** One [console.log] call: its arguments. *)
Definition Console : Type := list (list value).

Definition M (A : Type) : Type := Console -> outcome A * Console.

Definition ret {A} (a : A) : M A := fun c => (Returned a, c).

Definition throw {A} (e : JsError) : M A := fun c => (Thrown e, c).

Definition bind {A B} (m : M A) (k : A -> M B) : M B :=
  fun c => match m c with
           | (Returned a, c') => k a c'
           | (Thrown e, c') => (Thrown e, c')
           end.

(** [await p] for a promise of the environment. *)
Definition await {A} (p : outcome A) : M A := fun c => (p, c).

Definition console_log (args : list value) : M unit :=
  fun c => (Returned tt, (c ++ [args])%list).

Notation "x <- m ;; k" := (bind m (fun x => k))
  (at level 62, m at next level, right associativity).
Notation "m ;;; k" := (bind m (fun _ : unit => k))
  (at level 62, right associativity).

(** Destructuring [const { ... } = v] throws on [null] and [undefined]
    (the message is V8's, up to the name of the source expression). *)
Definition require_object_coercible (v : value) (prop : string) : M unit :=
  match v with
  | VUndefined =>
      throw (TypeError ("Cannot destructure property '" +:+ prop +:+ "' of 'undefined' as it is undefined."))
  | VNull =>
      throw (TypeError ("Cannot destructure property '" +:+ prop +:+ "' of 'null' as it is null."))
  | _ => ret tt
  end.

(** [(v as string).toLowerCase()] *)
Definition call_toLowerCase (v : value) : M string :=
  match v with
  | VStr s => ret (toLowerCase s)
  | VUndefined => throw (TypeError "Cannot read properties of undefined (reading 'toLowerCase')")
  | VNull => throw (TypeError "Cannot read properties of null (reading 'toLowerCase')")
  | _ => throw (TypeError "currency.toLowerCase is not a function")
  end.

(** [v.toUpperCase()] *)
Definition call_toUpperCase (v : value) : M string :=
  match v with
  | VStr s => ret (toUpperCase s)
  | VUndefined => throw (TypeError "Cannot read properties of undefined (reading 'toUpperCase')")
  | VNull => throw (TypeError "Cannot read properties of null (reading 'toUpperCase')")
  | _ => throw (TypeError "toUpperCase is not a function")
  end.

(** [v.k] as an expression: it throws on [null] and [undefined]. *)
Definition read_property (v : value) (k : string) : M value :=
  match v with
  | VUndefined =>
      throw (TypeError ("Cannot read properties of undefined (reading '" +:+ k +:+ "')"))
  | VNull =>
      throw (TypeError ("Cannot read properties of null (reading '" +:+ k +:+ "')"))
  | _ => ret (get_prop v k)
  end.

(** ** The environment of the payment adapter *)

(** The request [fetch] is called with.  [body] stands for
    [JSON.stringify(body)]: the value that is serialised, when there is one. *)
Record Request : Type := mkRequest {
  url : string;
  method : string;
  headers : list (string * string);
  body : option value
}.

(** The part of a [Response] the adapter reads.  [json] is what
    [res.json()] settles to: the parsed body, or the parse error. *)
Record Response : Type := mkResponse {
  ok : bool;
  status : Z;
  statusText : string;
  json : outcome value
}.

Record Region : Type := mkRegion { currency_code : string }.

(** The part of the cart [retrieveWithTotals] yields that the adapter reads. *)
Record Cart : Type := mkCart {
  total : Z;
  region : Region
}.

Record CartService : Type := mkCartService {
  retrieveWithTotals : value -> outcome Cart
}.

(** [PaymentSessionStatus], as far as the adapter uses it. *)
Inductive PaymentSessionStatus : Type :=
| AUTHORIZED
| PENDING
| ERROR.

Record PaymentProcessorError : Type := mkPaymentProcessorError {
  error : string;
  code : string;
  detail : string
}.

(** The second argument of [buildError]: a plain [{code?, detail}] or an
    [Error] instance. *)
Inductive ErrorLike : Type :=
| PlainError (code : option string) (detail : string)
| ErrorInstance (e : JsError).

(** What [authorizePayment] returns when it returns an object. *)
Record Authorization : Type := mkAuthorization {
  auth_status : PaymentSessionStatus;
  auth_data : object
}.

Record PaymongoPaymentService : Type := mkService {
  cartService : CartService;
  paymongoAPIKey : string;
  baseURL : string
}.

(** ** The payment adapter *)

Module PaymongoPaymentService.

Definition identifier : string := "paymongo".

Definition buildError (message : string) (e : ErrorLike) : PaymentProcessorError :=
  let errorMessage := "Paymongo error: " +:+ message in
  let code := match e with
              | ErrorInstance (mkError _ m _) => Some m
              | PlainError c _ => c
              end in
  let detail := match e with
                | ErrorInstance e => stack e
                | PlainError _ d => Some d
                end in
  {| error := errorMessage;
     code := default "" code;
     detail := default "" detail |}.

(** The shipping address of a cart; each field is a string or [null]. *)
Record Address : Type := mkAddress {
  address_1 : value;
  city : value;
  province : value;
  country_code : value;
  first_name : value;
  last_name : value;
  phone : value
}.

(** The cart of [retrieveWithTotals] as [initiatePayment] reads it. *)
Record CheckoutCart : Type := mkCheckoutCart {
  shipping_address : option Address;
  email : value;
  checkout_total : Z
}.

(** The part of [PaymentProcessorContext] the adapter reads. *)
Record PaymentProcessorContext : Type := mkContext {
  resource_id : string;
  paymentSessionData : object
}.

(** [PaymentProcessorSessionResponse], as the adapter fills it. *)
Record SessionResponse : Type := mkSessionResponse {
  session_data : object
}.

Section Methods.

Variable fetch : Request -> outcome Response.
Variable this : PaymongoPaymentService.

(** A call whose result is dropped: an expression statement. *)
Definition discard {A} (a : A) : M unit := ret tt.

Definition fetchPaymongo (method : option string) (path : string)
    (body : value) : M value :=
  let method := default "POST" method in
  let options :=
    {| url := "https://api.paymongo.com/v1/" +:+ path;
       method := method;
       headers := [ ("accept", "application/json");
                    ("Content-Type", "application/json");
                    ("authorization", "Basic " +:+ paymongoAPIKey this) ];
       body := if truthy body then Some body else None |} in
  res <- await (fetch options) ;;
  (if negb (ok res)
   then discard (buildError "Unable to fetch from paymongo"
                   (PlainError (Some (pretty (status res))) (statusText res)))
   else ret tt) ;;;
  await (json res).

Definition authorizePayment (paymentSessionData context : object)
    : M (option Authorization) :=
  let paymentIntentId := assoc "paymentIntentId" paymentSessionData in
  paymentIntentData <-
    fetchPaymongo (Some "GET") ("payment_intents/" +:+ ToString paymentIntentId)
      VUndefined ;;
  require_object_coercible paymentIntentData "data" ;;;
  let data := get_prop paymentIntentData "data" in
  require_object_coercible data "id" ;;;
  let id := get_prop data "id" in
  let attributes := get_prop data "attributes" in
  require_object_coercible attributes "amount" ;;;
  let amount := get_prop attributes "amount" in
  let status := get_prop attributes "status" in
  let currency := get_prop attributes "currency" in
  cart <- await (retrieveWithTotals (cartService this) (assoc "cart_id" context)) ;;
  let total := total cart in
  let currencyCode := currency_code (region cart) in
  let isValidAmount := strict_eq amount (VNum total) in
  lowered <- call_toLowerCase currency ;;
  let isValidCurrency := String.eqb currencyCode lowered in
  let after_if : M (option Authorization) :=
    console_log [VStr "authorize payment ===>>>> is called outside not succeeeded  "; status] ;;;
    ret None in
  if strict_eq status (VStr "succeeded") then
    console_log [VStr "authorize payment ===>>>> "; status] ;;;
    if isValidAmount && isValidCurrency then
      console_log [VStr "authorize payment ===>>>> is inside "; status] ;;;
      ret (Some {| auth_status := AUTHORIZED;
                   auth_data := [ ("paymentIntentId", id);
                                  ("paymentStatus", status) ] |})
    else
      console_log [VStr "authorize payment ===>>>> is called outside  "; status] ;;;
      after_if
  else after_if.

Definition getPaymentStatus (paymentSessionData : object)
    : M PaymentSessionStatus :=
  let paymentIntentId := assoc "paymentIntentId" paymentSessionData in
  paymentIntentData <-
    fetchPaymongo (Some "GET") ("payment_intents/" +:+ ToString paymentIntentId)
      VUndefined ;;
  if negb (truthy paymentIntentData) then ret ERROR
  else
    require_object_coercible paymentIntentData "data" ;;;
    let data := get_prop paymentIntentData "data" in
    require_object_coercible data "id" ;;;
    let id := get_prop data "id" in
    let attributes := get_prop data "attributes" in
    require_object_coercible attributes "status" ;;;
    let status := get_prop attributes "status" in
    if strict_eq status (VStr "succeeded") then
      console_log [VStr "called here"; status] ;;; ret AUTHORIZED
    else if strict_eq status (VStr "awaiting_next_action") then
      console_log [VStr "called here"; status] ;;; ret PENDING
    else if strict_eq status (VStr "awaiting_payment_method") then
      console_log [VStr "called here"; status] ;;; ret PENDING
    else if strict_eq status (VStr "processing") then
      console_log [VStr "called here"; status] ;;; ret PENDING
    else
      console_log [VStr "called here"; status] ;;; ret ERROR.

Definition refundPayment (paymentSessionData : object) (refundAmount : Z)
    : M object :=
  throw (Error "Method not implemented. refundPayment").

Definition capturePayment (paymentSessionData : object) : M object :=
  ret paymentSessionData.

Definition cancelPayment (paymentSessionData : object) : M object :=
  ret paymentSessionData.

Definition deletePayment (paymentSessionData : object) : M object :=
  ret paymentSessionData.

(** [this.cartService.retrieveWithTotals] at the fields [initiatePayment]
    destructures from the cart. *)
Variable retrieveCheckoutCart : value -> outcome CheckoutCart.

Definition initiatePayment (context : PaymentProcessorContext) : M SessionResponse :=
  cart <- await (retrieveCheckoutCart (VStr (resource_id context))) ;;
  let email := email cart in
  let total := checkout_total cart in
  shippingAddress <-
    match shipping_address cart with
    | Some a => ret a
    | None => throw (TypeError "Cannot read properties of null (reading 'address_1')")
    end ;;
  country <- call_toUpperCase (country_code shippingAddress) ;;
  let body :=
    VObj [ ("data",
      VObj [ ("attributes",
        VObj [ ("billing",
                 VObj [ ("address",
                          VObj [ ("line1", address_1 shippingAddress);
                                 ("city", city shippingAddress);
                                 ("state", province shippingAddress);
                                 ("postal_code", province shippingAddress);
                                 ("country", VStr country) ]);
                        ("name", VStr (ToString (first_name shippingAddress) +:+ " "
                                       +:+ ToString (last_name shippingAddress)));
                        ("email", email);
                        ("phone", phone shippingAddress) ]);
               ("send_email_receipt", VBool false);
               ("show_description", VBool false);
               ("show_line_items", VBool true);
               ("cancel_url", VStr (baseURL this +:+ "/checkout?step=payment_information"));
               ("line_items",
                 VArr [ VObj [ ("currency", VStr "PHP");
                               ("amount", VNum total);
                               ("name", VStr "Order Total");
                               ("quantity", VNum 1) ] ]);
               ("payment_method_types",
                 VArr [ VStr "card"; VStr "gcash"; VStr "paymaya"; VStr "dob";
                        VStr "dob_ubp" ]);
               ("success_url",
                 VStr (baseURL this +:+ "/checkout?step=review_order&success=true")) ]) ]) ] in
  data <- fetchPaymongo None "checkout_sessions" body ;;
  require_object_coercible data "data" ;;;
  let data := get_prop data "data" in
  require_object_coercible data "attributes" ;;;
  let attributes := get_prop data "attributes" in
  require_object_coercible attributes "checkout_url" ;;;
  let checkout_url := get_prop attributes "checkout_url" in
  let payment_intent := get_prop attributes "payment_intent" in
  require_object_coercible payment_intent "id" ;;;
  let paymentIntentId := get_prop payment_intent "id" in
  let attributes := get_prop payment_intent "attributes" in
  require_object_coercible attributes "status" ;;;
  let status := get_prop attributes "status" in
  ret {| session_data := [ ("checkout_url", checkout_url);
                           ("paymentIntentId", paymentIntentId);
                           ("paymentStatus", status) ] |}.

Definition retrievePayment (paymentSessionData : object) : M object :=
  let paymentIntentId := assoc "paymentIntentId" paymentSessionData in
  paymentIntentData <-
    fetchPaymongo (Some "GET") ("payment_intents/" +:+ ToString paymentIntentId)
      VUndefined ;;
  logged <- read_property paymentIntentData "data" ;;
  console_log [ VStr "retrievePayment ===>>>> is called outside";
                VObj (set_prop "paymongoData" logged paymentSessionData) ] ;;;
  paymongoData <- read_property paymentIntentData "data" ;;
  ret (set_prop "paymongoData" paymongoData paymentSessionData).

Definition updatePayment (context : PaymentProcessorContext)
    : M (option SessionResponse) :=
  let paymentIntentId := assoc "paymentIntentId" (paymentSessionData context) in
  paymentIntentData <-
    fetchPaymongo (Some "GET") ("payment_intents/" +:+ ToString paymentIntentId)
      VUndefined ;;
  require_object_coercible paymentIntentData "data" ;;;
  let data := get_prop paymentIntentData "data" in
  require_object_coercible data "attributes" ;;;
  let attributes := get_prop data "attributes" in
  require_object_coercible attributes "status" ;;;
  let status := get_prop attributes "status" in
  if negb (strict_eq status (VStr "succeeded")) then
    console_log [VStr "called here???????????????????????????????????"] ;;;
    session <- initiatePayment context ;;
    ret (Some session)
  else ret None.

Definition updatePaymentData (_ : string) (data : object) : M object :=
  ret data.

End Methods.

End PaymongoPaymentService.

Import PaymongoPaymentService.

(** ** The reconciler of the specification, read off the adapter *)

Record PaymentIntentSnapshot : Type := mkSnapshot {
  snap_id : string;
  snap_amount : Z;
  snap_currency : string;
  snap_status : string
}.

Record OrderExpectation : Type := mkExpectation {
  exp_total : Z;
  exp_currencyCode : string
}.

(** The body of the vendor's answer to [GET payment_intents/:id] for a
    snapshot. *)
Definition payload (s : PaymentIntentSnapshot) : value :=
  VObj [ ("data",
          VObj [ ("id", VStr (snap_id s));
                 ("type", VStr "payment_intent");
                 ("attributes",
                  VObj [ ("amount", VNum (snap_amount s));
                         ("currency", VStr (snap_currency s));
                         ("status", VStr (snap_status s)) ]) ]) ].

Definition ok_response (body : value) : Response :=
  {| ok := true; status := 200; statusText := "OK"; json := Returned body |}.

(** The vendor reports snapshot [s] for every payment intent asked for. *)
Definition reports (fetch : Request -> outcome Response)
    (s : PaymentIntentSnapshot) : Prop :=
  forall req, fetch req = Returned (ok_response (payload s)).

(** The cart service holds expectation [e] for every cart asked for. *)
Definition expects (this : PaymongoPaymentService) (e : OrderExpectation) : Prop :=
  forall cart_id,
    retrieveWithTotals (cartService this) cart_id
    = Returned {| total := exp_total e;
                  region := {| currency_code := exp_currencyCode e |} |}.

Definition vendor_of (s : PaymentIntentSnapshot) : Request -> outcome Response :=
  fun _ => Returned (ok_response (payload s)).

Definition service_of (e : OrderExpectation) : PaymongoPaymentService :=
  {| cartService :=
       {| retrieveWithTotals := fun _ =>
            Returned {| total := exp_total e;
                        region := {| currency_code := exp_currencyCode e |} |} |};
     paymongoAPIKey := "";
     baseURL := "http://localhost:3000" |}.

(** The platform state an invocation hands back; [None] when the method
    returns without a value. *)
Definition result_of (o : outcome (option Authorization))
    : outcome (option PaymentSessionStatus) :=
  match o with
  | Returned r => Returned (option_map auth_status r)
  | Thrown e => Thrown e
  end.

(** [classify(snapshot, expectation)]: [authorizePayment] where the vendor
    reports the snapshot and the cart holds the expectation. *)
Definition classify (s : PaymentIntentSnapshot) (e : OrderExpectation)
    : outcome (option PaymentSessionStatus) :=
  result_of
    (fst (authorizePayment (vendor_of s) (service_of e)
            [("paymentIntentId", VStr (snap_id s))] [("cart_id", VStr "cart")] [])).

(** What the fetch of a snapshot can come to: the vendor reports it, the
    vendor has none to report (the body parses to [null]), or the request
    itself fails (the promise of [fetch] rejects). *)
Inductive SnapshotFetch : Type :=
| Reported (s : PaymentIntentSnapshot)
| Absent
| Unfetchable (err : JsError).

Definition absent_vendor : Request -> outcome Response :=
  fun _ => Returned (ok_response VNull).

Definition failing_vendor (err : JsError) : Request -> outcome Response :=
  fun _ => Thrown err.

Definition vendor_for (f : SnapshotFetch) : Request -> outcome Response :=
  match f with
  | Reported s => vendor_of s
  | Absent => absent_vendor
  | Unfetchable err => failing_vendor err
  end.

(** [toSessionStatus(snapshot)]: [getPaymentStatus] against the vendor. *)
Definition toSessionStatus (f : SnapshotFetch) : outcome PaymentSessionStatus :=
  fst (getPaymentStatus (vendor_for f) (service_of (mkExpectation 0 ""))
         [("paymentIntentId", VStr "pi_1")] []).

(** The status table of the specification for the status-only variant: a
    second definition, after the specification's words, to compare
    [getPaymentStatus] with. *)
Definition spec_session_status (status : string) : PaymentSessionStatus :=
  if String.eqb status "succeeded" then AUTHORIZED
  else if String.eqb status "awaiting_next_action"
          || String.eqb status "awaiting_payment_method"
          || String.eqb status "processing" then PENDING
  else ERROR.

(** ** The file adapter *)

Module SupabaseFIleService.

Record StorageError : Type := mkStorageError { storage_message : string }.

Record FileObject : Type := mkFileObject { object_name : string }.

(** What [storage.from(bucket).remove(paths)] resolves to. *)
Record RemoveReply : Type := mkRemoveReply {
  data : option (list FileObject);
  error : option StorageError
}.

(** [DeleteFileType] *)
Record DeleteFileType : Type := mkDeleteFileType {
  fileKey : string;
  other_fields : object
}.

Inductive LogEntry : Type :=
| LogInfo (msg : string)
| LogError (e : StorageError).

Record SupabaseFIleService : Type := mkFileService {
  bucket : string;
  signedUrlExpiration : Z;
  storageUrl : string
}.

Section Methods.

(** The storage backend behind [storageClient]: its state, and its
    [remove] call on a bucket. *)
Variable Storage : Type.
Variable remove : string -> list string -> Storage -> outcome RemoveReply * Storage.
Variable this : SupabaseFIleService.

Definition delete (fileData : DeleteFileType) (st : Storage)
    (log : list LogEntry) : outcome unit * Storage * list LogEntry :=
  match remove (bucket this) ["assets/34ecd528-0377-4dfa-b3f4-1f3aa9018b8a.jpg"] st with
  | (Thrown e, st') => (Thrown e, st', log)
  | (Returned reply, st') =>
      let log :=
        match data reply with
        | Some _ => (log ++ [LogInfo (fileKey fileData)])%list
        | None => log
        end in
      match error reply with
      | Some err => (Thrown (Error "Error deleting file"), st', (log ++ [LogError err])%list)
      | None => (Returned tt, st', log)
      end
  end.

End Methods.

(** [Express.Multer.File], the fields the adapter reads. *)
Record MulterFile : Type := mkMulterFile {
  originalname : string;
  path : string;
  mimetype : string
}.

Record UploadData : Type := mkUploadData { data_path : string }.

(** What [storage.from(bucket).upload(...)] resolves to. *)
Record UploadReply : Type := mkUploadReply {
  upload_data : option UploadData;
  upload_error : option StorageError
}.

Record SignedUrlData : Type := mkSignedUrlData { signedUrl : string }.

(** What [storage.from(bucket).createSignedUrl(...)] resolves to. *)
Record SignedUrlReply : Type := mkSignedUrlReply {
  signed_data : option SignedUrlData;
  signed_error : option StorageError
}.

(** [FileServiceUploadResult] *)
Record FileServiceUploadResult : Type := mkUploadResult {
  key : string;
  url : string
}.

(** [originalname.split('.').pop()] inside a template literal. *)
Definition extension (originalname : string) : string :=
  ToString (pop (split "." originalname)).

Section Uploads.

(** The backend calls the upload methods make.  [upload] gets the bucket,
    the object path, the local path the read stream is opened on and the
    content type; [createSignedUrl] the bucket, the object path and the
    expiration in seconds. *)
Variable Storage : Type.
Variable storage_upload :
  string -> string -> string -> string -> Storage -> outcome UploadReply * Storage.
Variable createSignedUrl :
  string -> string -> Z -> Storage -> outcome SignedUrlReply * Storage.
Variable this : SupabaseFIleService.

(** [uuid] is what [randomUUID()] returns in the call. *)
Definition upload (uuid : string) (fileData : MulterFile) (st : Storage)
    (log : list LogEntry)
    : outcome FileServiceUploadResult * Storage * list LogEntry :=
  match storage_upload (bucket this)
          ("assets/" +:+ uuid +:+ "." +:+ extension (originalname fileData))
          (path fileData) (mimetype fileData) st with
  | (Thrown e, st') => (Thrown e, st', log)
  | (Returned reply, st') =>
      match upload_error reply with
      | None =>
          match upload_data reply with
          | None =>
              (Thrown (TypeError "Cannot read properties of null (reading 'path')"),
               st', log)
          | Some d =>
              (Returned {| key := data_path d;
                           url := storageUrl this +:+ "/" +:+ bucket this +:+ "/"
                                  +:+ data_path d |},
               st', (log ++ [LogInfo (data_path d)])%list)
          end
      | Some err =>
          (Thrown (Error "Error uploading file"), st', (log ++ [LogError err])%list)
      end
  end.

Definition uploadProtected (uuid : string) (fileData : MulterFile) (st : Storage)
    (log : list LogEntry)
    : outcome FileServiceUploadResult * Storage * list LogEntry :=
  match storage_upload (bucket this)
          ("private/" +:+ uuid +:+ "." +:+ extension (originalname fileData))
          (path fileData) (mimetype fileData) st with
  | (Thrown e, st') => (Thrown e, st', log)
  | (Returned reply, st') =>
      match upload_error reply with
      | Some err =>
          (Thrown (Error "Error uploading file"), st', (log ++ [LogError err])%list)
      | None =>
          match upload_data reply with
          | None =>
              (Thrown (TypeError "Cannot read properties of null (reading 'path')"),
               st', log)
          | Some d =>
              match createSignedUrl (bucket this) (data_path d)
                      (signedUrlExpiration this) st' with
              | (Thrown e, st'') => (Thrown e, st'', log)
              | (Returned signedURLResult, st'') =>
                  match signed_error signedURLResult with
                  | Some err =>
                      (Thrown (Error "Error getting presigned url"), st'',
                       (log ++ [LogError err])%list)
                  | None =>
                      match signed_data signedURLResult with
                      | None =>
                          (Thrown (TypeError
                             "Cannot read properties of null (reading 'signedUrl')"),
                           st'', log)
                      | Some signed =>
                          (Returned {| key := data_path d; url := signedUrl signed |},
                           st'', log)
                      end
                  end
              end
          end
      end
  end.

End Uploads.

(** An in-memory backend: buckets by name, objects by path. *)
Definition memory_remove (bucket : string) (paths : list string)
    (st : gmap string (gmap string string))
    : outcome RemoveReply * gmap string (gmap string string) :=
  match st !! bucket with
  | None =>
      (Returned {| data := None;
                   error := Some (mkStorageError "Bucket not found") |}, st)
  | Some objects =>
      let removed := List.filter (fun p => bool_decide (is_Some (objects !! p))) paths in
      (Returned {| data := Some (List.map mkFileObject removed); error := None |},
       <[bucket := foldr base.delete objects paths]> st)
  end.

End SupabaseFIleService.

(** ** Sample data *)

(** The answer of the vendor to a request with a bad API key. *)
Definition unauthorized : Response :=
  {| ok := false;
     status := 401;
     statusText := "Unauthorized";
     json := Returned
               (VObj [ ("errors",
                        VArr [ VObj [ ("code", VStr "authentication_invalid");
                                      ("detail", VStr "The API key is invalid.") ] ]) ]) |}.

Definition media : SupabaseFIleService.SupabaseFIleService :=
  {| SupabaseFIleService.bucket := "media";
     SupabaseFIleService.signedUrlExpiration := 120;
     SupabaseFIleService.storageUrl := "http://127.0.0.1:54321/storage/v1/object/public" |}.

Definition two_objects : gmap string (gmap string string) :=
  {[ "media" := {[ "assets/34ecd528-0377-4dfa-b3f4-1f3aa9018b8a.jpg" := "jpeg";
                   "assets/other.png" := "png" ]} ]}.

(** A backend that stores every upload under the path asked for. *)
Definition accepting_upload (bucket path source contentType : string)
    (st : gmap string (gmap string string))
    : outcome SupabaseFIleService.UploadReply * gmap string (gmap string string) :=
  (Returned {| SupabaseFIleService.upload_data :=
                 Some (SupabaseFIleService.mkUploadData path);
               SupabaseFIleService.upload_error := None |},
   <[bucket := <[path := source]> (default ∅ (st !! bucket))]> st).

(** A backend that refuses every upload. *)
Definition refusing_upload (bucket path source contentType : string)
    (st : gmap string (gmap string string))
    : outcome SupabaseFIleService.UploadReply * gmap string (gmap string string) :=
  (Returned {| SupabaseFIleService.upload_data := None;
               SupabaseFIleService.upload_error :=
                 Some (SupabaseFIleService.mkStorageError "Bucket not found") |},
   st).

(** A backend that signs every path. *)
Definition signing (bucket path : string) (expiresIn : Z)
    (st : gmap string (gmap string string))
    : outcome SupabaseFIleService.SignedUrlReply * gmap string (gmap string string) :=
  (Returned {| SupabaseFIleService.signed_data :=
                 Some (SupabaseFIleService.mkSignedUrlData
                         ("https://signed.example/" +:+ bucket +:+ "/" +:+ path
                          +:+ "?expires=" +:+ pretty expiresIn));
               SupabaseFIleService.signed_error := None |},
   st).

(** A backend that signs nothing. *)
Definition refusing_signing (bucket path : string) (expiresIn : Z)
    (st : gmap string (gmap string string))
    : outcome SupabaseFIleService.SignedUrlReply * gmap string (gmap string string) :=
  (Returned {| SupabaseFIleService.signed_data := None;
               SupabaseFIleService.signed_error :=
                 Some (SupabaseFIleService.mkStorageError "Object not found") |},
   st).

Definition photo : SupabaseFIleService.MulterFile :=
  {| SupabaseFIleService.originalname := "holiday.photo.JPG";
     SupabaseFIleService.path := "/tmp/upload_1";
     SupabaseFIleService.mimetype := "image/jpeg" |}.

Definition paid : PaymentIntentSnapshot := mkSnapshot "pi_1" 5000 "PHP" "succeeded".

Definition unpaid : PaymentIntentSnapshot :=
  mkSnapshot "pi_1" 5000 "PHP" "awaiting_payment_method".

Definition order : OrderExpectation := mkExpectation 5000 "php".

Definition session : object := [("paymentIntentId", VStr "pi_1")].

(** A pending payment intent reported without its currency. *)
Definition no_currency : value :=
  VObj [ ("data",
          VObj [ ("id", VStr "pi_1");
                 ("attributes",
                  VObj [ ("amount", VNum 5000); ("status", VStr "processing") ]) ]) ].

Definition home : Address :=
  {| address_1 := VStr "1 Rizal St"; city := VStr "Manila"; province := VStr "NCR";
     country_code := VStr "ph"; first_name := VStr "Ana"; last_name := VStr "Cruz";
     phone := VNull |}.

Definition checkout_cart : CheckoutCart :=
  {| shipping_address := Some home; email := VStr "ana@example.com";
     checkout_total := 5000 |}.

Definition checkout : PaymentProcessorContext :=
  {| resource_id := "cart_1"; paymentSessionData := session |}.

(** The paid payment intent, sent with a failing HTTP status. *)
Definition paid_with_500 : Response :=
  {| ok := false; status := 500; statusText := "Internal Server Error";
     json := Returned (payload paid) |}.

(** The vendor's answer to the creation of a checkout session. *)
Definition checkout_session : value :=
  VObj [ ("data",
          VObj [ ("id", VStr "cs_1");
                 ("attributes",
                  VObj [ ("checkout_url", VStr "https://checkout.paymongo.com/cs_1");
                         ("payment_intent",
                          VObj [ ("id", VStr "pi_2");
                                 ("attributes",
                                  VObj [ ("status", VStr "awaiting_payment_method") ]) ]) ]) ]) ].

(** A vendor with one unpaid payment intent, which opens a checkout session
    on every [POST]. *)
Definition unpaid_vendor (req : Request) : outcome Response :=
  if String.eqb (method req) "POST" then Returned (ok_response checkout_session)
  else Returned (ok_response (payload unpaid)).

(** ** Requests and raw payloads, for the statements below *)

(** The request [fetchPaymongo] hands to [fetch]. *)
Definition paymongo_request (this : PaymongoPaymentService) (method path : string)
    (body : option value) : Request :=
  {| url := "https://api.paymongo.com/v1/" +:+ path;
     method := method;
     headers := [ ("accept", "application/json");
                  ("Content-Type", "application/json");
                  ("authorization", "Basic " +:+ paymongoAPIKey this) ];
     body := body |}.

(** [GET payment_intents/:id], without a body. *)
Definition payment_intent_request (this : PaymongoPaymentService)
    (paymentIntentId : value) : Request :=
  paymongo_request this "GET" ("payment_intents/" +:+ ToString paymentIntentId) None.

(** The status table on a raw status value: only strings are looked up. *)
Definition spec_status_of_value (status : value) : PaymentSessionStatus :=
  match status with
  | VStr s => spec_session_status s
  | _ => ERROR
  end.

(** [v] is [null] or [undefined]. *)
Definition nullish (v : value) : bool :=
  match v with
  | VUndefined | VNull => true
  | _ => false
  end.

(** * Properties *)

(** ** Running the payment adapter against a reported snapshot *)

Section Runs.

Variable fetch : Request -> outcome Response.
Variable this : PaymongoPaymentService.
Variable s : PaymentIntentSnapshot.
Variable e : OrderExpectation.
Hypothesis Hfetch : reports fetch s.
Hypothesis Hcart : expects this e.

Lemma fetchPaymongo_reported method path body c :
  fetchPaymongo fetch this method path body c = (Returned (payload s), c).
Proof using Hfetch.
  unfold fetchPaymongo, bind, await. rewrite Hfetch. reflexivity.
Qed.

(** [authorizePayment], branch by branch. *)
Lemma authorizePayment_run data ctx c :
  authorizePayment fetch this data ctx c =
  if String.eqb (snap_status s) "succeeded" then
    if (snap_amount s =? exp_total e)
       && String.eqb (exp_currencyCode e) (toLowerCase (snap_currency s)) then
      (Returned (Some {| auth_status := AUTHORIZED;
                         auth_data := [ ("paymentIntentId", VStr (snap_id s));
                                        ("paymentStatus", VStr (snap_status s)) ] |}),
       (c ++ [ [VStr "authorize payment ===>>>> "; VStr (snap_status s)];
               [VStr "authorize payment ===>>>> is inside "; VStr (snap_status s)] ])%list)
    else
      (Returned None,
       (c ++ [ [VStr "authorize payment ===>>>> "; VStr (snap_status s)];
               [VStr "authorize payment ===>>>> is called outside  "; VStr (snap_status s)];
               [VStr "authorize payment ===>>>> is called outside not succeeeded  ";
                VStr (snap_status s)] ])%list)
  else
    (Returned None,
     (c ++ [ [VStr "authorize payment ===>>>> is called outside not succeeeded  ";
              VStr (snap_status s)] ])%list).
Proof using Hfetch Hcart.
  unfold authorizePayment, bind.
  rewrite fetchPaymongo_reported. cbn.
  unfold await. rewrite Hcart. cbn.
  destruct (String.eqb (snap_status s) "succeeded"); cbn.
  - destruct ((snap_amount s =? exp_total e)
              && String.eqb (exp_currencyCode e) (toLowerCase (snap_currency s)));
      cbn; rewrite <- ?app_assoc; reflexivity.
  - reflexivity.
Qed.

(** [getPaymentStatus] follows the specification's status table. *)
Lemma getPaymentStatus_run data c :
  getPaymentStatus fetch this data c =
  (Returned (spec_session_status (snap_status s)),
   (c ++ [ [VStr "called here"; VStr (snap_status s)] ])%list).
Proof using Hfetch.
  unfold getPaymentStatus, bind.
  rewrite fetchPaymongo_reported. cbn. unfold spec_session_status.
  destruct (String.eqb (snap_status s) "succeeded"); [reflexivity|].
  destruct (String.eqb (snap_status s) "awaiting_next_action"); [reflexivity|].
  destruct (String.eqb (snap_status s) "awaiting_payment_method"); [reflexivity|].
  destruct (String.eqb (snap_status s) "processing"); reflexivity.
Qed.

End Runs.

Lemma vendor_of_reports s : reports (vendor_of s) s.
Proof. intros req. reflexivity. Qed.

Lemma service_of_expects e : expects (service_of e) e.
Proof. intros cart_id. reflexivity. Qed.

(** Whatever the session data, the context, the API key and the console,
    an invocation of [authorizePayment] hands back [classify s e]. *)
Lemma authorizePayment_classify fetch this s e data ctx c :
  reports fetch s -> expects this e ->
  result_of (fst (authorizePayment fetch this data ctx c)) = classify s e.
Proof.
  intros Hf Hc. unfold classify.
  rewrite (authorizePayment_run fetch this s e Hf Hc).
  rewrite (authorizePayment_run _ _ s e (vendor_of_reports s) (service_of_expects e)).
  destruct (String.eqb (snap_status s) "succeeded"); [|reflexivity].
  destruct ((snap_amount s =? exp_total e)
            && String.eqb (exp_currencyCode e) (toLowerCase (snap_currency s)));
    reflexivity.
Qed.

(** [classify] by cases: the only value it ever hands back is [AUTHORIZED]. *)
Lemma classify_cases s e :
  classify s e =
  if String.eqb (snap_status s) "succeeded"
     && (snap_amount s =? exp_total e)
     && String.eqb (exp_currencyCode e) (toLowerCase (snap_currency s))
  then Returned (Some AUTHORIZED)
  else Returned None.
Proof.
  unfold classify.
  rewrite (authorizePayment_run _ _ s e (vendor_of_reports s) (service_of_expects e)).
  destruct (String.eqb (snap_status s) "succeeded"); [|reflexivity].
  destruct (snap_amount s =? exp_total e); [|reflexivity].
  destruct (String.eqb (exp_currencyCode e) (toLowerCase (snap_currency s)));
    reflexivity.
Qed.

Lemma toSessionStatus_reported s :
  toSessionStatus (Reported s) = Returned (spec_session_status (snap_status s)).
Proof.
  unfold toSessionStatus. cbn [vendor_for].
  rewrite (getPaymentStatus_run _ _ s (vendor_of_reports s)). reflexivity.
Qed.

(** A rejected [fetch] rejects the method: nothing catches it. *)
Lemma getPaymentStatus_fetch_rejected this data c err :
  getPaymentStatus (failing_vendor err) this data c = (Thrown err, c).
Proof. reflexivity. Qed.

(** An empty payload, whatever the response around it, is an [ERROR], and
    nothing is logged. *)
Lemma getPaymentStatus_empty_payload fetch this data c res body :
  (forall req, fetch req = Returned res) ->
  json res = Returned body -> truthy body = false ->
  getPaymentStatus fetch this data c = (Returned ERROR, c).
Proof.
  intros Hf Hj Hb. unfold getPaymentStatus, fetchPaymongo, bind, await, discard, ret.
  rewrite Hf. destruct (negb (ok res)); cbn; rewrite Hj, Hb; reflexivity.
Qed.

(** ** The reconciler *)

(** C1: [classify] hands back [AUTHORIZED] exactly when the status is
    [succeeded], the amount is the expected total and the lower-cased
    currency is the expected currency code; when one of the three fails,
    [AUTHORIZED] is not handed back. *)
Theorem classify_authorized_iff (s : PaymentIntentSnapshot) (e : OrderExpectation) :
  classify s e = Returned (Some AUTHORIZED)
  <-> (snap_status s = "succeeded"
       /\ snap_amount s = exp_total e
       /\ toLowerCase (snap_currency s) = exp_currencyCode e).
Proof.
  rewrite classify_cases. split.
  - destruct (String.eqb (snap_status s) "succeeded") eqn:Hs; [|discriminate].
    destruct (snap_amount s =? exp_total e) eqn:Ha; [|discriminate].
    destruct (String.eqb (exp_currencyCode e) (toLowerCase (snap_currency s))) eqn:Hc;
      [|discriminate].
    intros _. apply String.eqb_eq in Hs, Hc. apply Z.eqb_eq in Ha. auto.
  - intros (Hs & Ha & Hc).
    apply String.eqb_eq in Hs. apply Z.eqb_eq in Ha.
    symmetry in Hc. apply String.eqb_eq in Hc.
    rewrite Hs, Ha, Hc. reflexivity.
Qed.

Example classify_authorized_example :
  classify (mkSnapshot "pi_1" 5000 "PHP" "succeeded") (mkExpectation 5000 "php")
  = Returned (Some AUTHORIZED).
Proof. reflexivity. Qed.

(** C2: at the specification's own example (succeeded, amount 4000 against
    a total of 5000) [classify] hands back no value, not [ERROR]. *)
Theorem classify_mismatch_no_value :
  classify (mkSnapshot "pi_1" 4000 "PHP" "succeeded") (mkExpectation 5000 "php")
  = Returned None.
Proof. reflexivity. Qed.

(** C3: for the three pending statuses [classify] hands back no value, not
    [PENDING]. *)
Theorem classify_pending_no_value :
  classify (mkSnapshot "pi_1" 5000 "PHP" "awaiting_next_action") (mkExpectation 5000 "php")
  = Returned None
  /\ classify (mkSnapshot "pi_1" 5000 "PHP" "awaiting_payment_method") (mkExpectation 5000 "php")
     = Returned None
  /\ classify (mkSnapshot "pi_1" 5000 "PHP" "processing") (mkExpectation 5000 "php")
     = Returned None.
Proof. repeat split; reflexivity. Qed.

(** C4: on status [processing] the two variants part: the status-only one
    hands back [PENDING], [classify] hands back no value. *)
Theorem toSessionStatus_classify_differ :
  toSessionStatus (Reported (mkSnapshot "pi_1" 5000 "PHP" "processing")) = Returned PENDING
  /\ classify (mkSnapshot "pi_1" 5000 "PHP" "processing") (mkExpectation 5000 "php")
     = Returned None.
Proof. split; reflexivity. Qed.

(** Where the gate passes, the two variants agree. *)
Lemma toSessionStatus_classify_agree_authorized s e :
  classify s e = Returned (Some AUTHORIZED) ->
  toSessionStatus (Reported s) = Returned AUTHORIZED.
Proof.
  rewrite classify_cases, toSessionStatus_reported. unfold spec_session_status.
  destruct (String.eqb (snap_status s) "succeeded"); [reflexivity|discriminate].
Qed.

(** On every status other than [succeeded] they differ. *)
Lemma toSessionStatus_classify_differ_everywhere s e :
  snap_status s <> "succeeded" ->
  classify s e = Returned None
  /\ exists r, toSessionStatus (Reported s) = Returned r.
Proof.
  intros Hs. apply String.eqb_neq in Hs. split.
  - rewrite classify_cases, Hs. reflexivity.
  - rewrite toSessionStatus_reported. eauto.
Qed.

(** C5, as stated, fails: when the snapshot cannot be fetched the method
    throws; it does not hand back [ERROR]. *)
Lemma toSessionStatus_unfetchable_not_ERROR :
  toSessionStatus (Unfetchable (TypeError "fetch failed")) <> Returned ERROR.
Proof. discriminate. Qed.

(** C5, amended: the status-only variant hands back [AUTHORIZED] for
    [succeeded], [PENDING] for [awaiting_next_action],
    [awaiting_payment_method] and [processing], [ERROR] for every other
    status and [ERROR] for an absent snapshot (an empty payload); when the
    fetch itself fails, that failure is what the caller gets. *)
Theorem toSessionStatus_table :
  (forall s, toSessionStatus (Reported s) =
             Returned (if String.eqb (snap_status s) "succeeded" then AUTHORIZED
                       else if String.eqb (snap_status s) "awaiting_next_action" then PENDING
                       else if String.eqb (snap_status s) "awaiting_payment_method" then PENDING
                       else if String.eqb (snap_status s) "processing" then PENDING
                       else ERROR))
  /\ toSessionStatus Absent = Returned ERROR
  /\ (forall err, toSessionStatus (Unfetchable err) = Thrown err).
Proof.
  split; [|split; [reflexivity|intros err; reflexivity]].
  intros s. rewrite toSessionStatus_reported. unfold spec_session_status.
  destruct (String.eqb (snap_status s) "succeeded"); [reflexivity|].
  destruct (String.eqb (snap_status s) "awaiting_next_action"); [reflexivity|].
  destruct (String.eqb (snap_status s) "awaiting_payment_method"); reflexivity.
Qed.

(** C9: two invocations of [authorizePayment] for the same snapshot and the
    same expectation hand back the same output, whatever the API key, the
    session data, the context and the console they run with. *)
Theorem classify_deterministic (s : PaymentIntentSnapshot) (e : OrderExpectation)
    fetch1 fetch2 this1 this2 data1 data2 ctx1 ctx2 c1 c2 :
  reports fetch1 s -> reports fetch2 s ->
  expects this1 e -> expects this2 e ->
  fst (authorizePayment fetch1 this1 data1 ctx1 c1)
  = fst (authorizePayment fetch2 this2 data2 ctx2 c2).
Proof.
  intros Hf1 Hf2 Hc1 Hc2.
  rewrite (authorizePayment_run fetch1 this1 s e Hf1 Hc1).
  rewrite (authorizePayment_run fetch2 this2 s e Hf2 Hc2).
  destruct (String.eqb (snap_status s) "succeeded"); [|reflexivity].
  destruct ((snap_amount s =? exp_total e)
            && String.eqb (exp_currencyCode e) (toLowerCase (snap_currency s)));
    reflexivity.
Qed.

Lemma classify_deterministic_witness :
  reports (vendor_of (mkSnapshot "pi_1" 5000 "PHP" "succeeded"))
          (mkSnapshot "pi_1" 5000 "PHP" "succeeded")
  /\ expects (service_of (mkExpectation 5000 "php")) (mkExpectation 5000 "php")
  /\ fst (authorizePayment (vendor_of (mkSnapshot "pi_1" 5000 "PHP" "succeeded"))
            (service_of (mkExpectation 5000 "php"))
            [("paymentIntentId", VStr "pi_1")] [("cart_id", VStr "cart_1")] [])
     = fst (authorizePayment (vendor_of (mkSnapshot "pi_1" 5000 "PHP" "succeeded"))
              (service_of (mkExpectation 5000 "php"))
              [("paymentIntentId", VStr "pi_1")] [("cart_id", VStr "cart_1")]
              [[VStr "authorize payment ===>>>> "; VStr "succeeded"];
               [VStr "authorize payment ===>>>> is inside "; VStr "succeeded"]]).
Proof.
  split; [intros req; reflexivity|].
  split; [intros cart_id; reflexivity|].
  apply (classify_deterministic (mkSnapshot "pi_1" 5000 "PHP" "succeeded")
           (mkExpectation 5000 "php")).
  - intros req; reflexivity.
  - intros req; reflexivity.
  - intros cart_id; reflexivity.
  - intros cart_id; reflexivity.
Defined.

(** ** Vendor failures *)

Example buildError_unauthorized :
  buildError "Unable to fetch from paymongo"
    (PlainError (Some (pretty (status unauthorized))) (statusText unauthorized))
  = {| error := "Paymongo error: Unable to fetch from paymongo";
       code := "401";
       detail := "Unauthorized" |}.
Proof. reflexivity. Qed.

(** [res.ok] has no effect on what [fetchPaymongo] hands back. *)
Lemma fetchPaymongo_ignores_ok fetch this method path body c res :
  (forall req, fetch req = Returned res) ->
  fetchPaymongo fetch this method path body c = (json res, c).
Proof.
  intros Hf. unfold fetchPaymongo, bind, await, discard, ret. rewrite Hf.
  destruct (negb (ok res)); reflexivity.
Qed.

(** C6: on a 401 answer [fetchPaymongo] hands its caller the parsed body of
    the answer; the error built from the status code and status text is
    dropped. *)
Theorem fetchPaymongo_unauthorized_returns_body this method path body c :
  fetchPaymongo (fun _ => Returned unauthorized) this method path body c
  = (json unauthorized, c).
Proof. apply fetchPaymongo_ignores_ok. reflexivity. Qed.

(** The callers then go on with that body. *)
Example getPaymentStatus_unauthorized :
  exists msg,
    fst (getPaymentStatus (fun _ => Returned unauthorized) (service_of (mkExpectation 0 ""))
           [("paymentIntentId", VStr "pi_1")] [])
    = Thrown (TypeError msg).
Proof. eexists. reflexivity. Qed.

(** ** Unimplemented operations *)

(** C7, as stated, fails: [capturePayment] returns normally. *)
Lemma capturePayment_does_not_fail :
  ~ (exists err, fst (capturePayment [("paymentIntentId", VStr "pi_1")] []) = Thrown err).
Proof. intros [err H]. discriminate H. Qed.

(** C7, amended: for every input [capturePayment] returns the session data
    it was given, unchanged, and throws nothing. *)
Theorem capturePayment_returns_input (paymentSessionData : object) (c : Console) :
  capturePayment paymentSessionData c = (Returned paymentSessionData, c).
Proof. reflexivity. Qed.

(** C8: for every input [refundPayment] throws the error
    [Method not implemented. refundPayment]; it never returns. *)
Theorem refundPayment_not_implemented (paymentSessionData : object)
    (refundAmount : Z) (c : Console) :
  fst (refundPayment paymentSessionData refundAmount c)
  = Thrown (Error "Method not implemented. refundPayment")
  /\ forall r, fst (refundPayment paymentSessionData refundAmount c) <> Returned r.
Proof. split; [reflexivity|]. intros r H. discriminate H. Qed.

(** ** The payment adapter on raw vendor answers *)

Lemma strict_eq_VStr v s : strict_eq v (VStr s) = true <-> v = VStr s.
Proof.
  destruct v; cbn; try (split; [discriminate|intros H; discriminate H]).
  rewrite String.eqb_eq. split; [intros ->; reflexivity|intros H; injection H; auto].
Qed.

Lemma strict_eq_VNum v n : strict_eq v (VNum n) = true <-> v = VNum n.
Proof.
  destruct v; cbn; try (split; [discriminate|intros H; discriminate H]).
  rewrite Z.eqb_eq. split; [intros ->; reflexivity|intros H; injection H; auto].
Qed.

Lemma assoc_set_prop_eq k v o : assoc k (set_prop k v o) = v.
Proof.
  induction o as [|[k' v'] o IH]; cbn.
  - rewrite String.eqb_refl. reflexivity.
  - destruct (String.eqb k k') eqn:E; cbn; rewrite E; auto.
Qed.

Lemma assoc_set_prop_ne k k' v o : k' <> k -> assoc k' (set_prop k v o) = assoc k' o.
Proof.
  intros Hne. induction o as [|[k0 v0] o IH]; cbn.
  - apply String.eqb_neq in Hne. rewrite Hne. reflexivity.
  - destruct (String.eqb k k0) eqn:E; cbn.
    + apply String.eqb_eq in E. subst k0.
      apply String.eqb_neq in Hne. rewrite Hne. reflexivity.
    + rewrite IH. reflexivity.
Qed.

(** What [fetchPaymongo] asks and what it hands back. *)
Lemma fetchPaymongo_request fetch this method path body c :
  fetchPaymongo fetch this method path body c =
  (match fetch (paymongo_request this (default "POST" method) path
                  (if truthy body then Some body else None)) with
   | Returned res => json res
   | Thrown e => Thrown e
   end, c).
Proof.
  unfold fetchPaymongo, bind, await, discard, ret, paymongo_request.
  destruct (fetch _) as [res|e]; [|reflexivity].
  destruct (negb (ok res)); reflexivity.
Qed.

(** X1: whatever the vendor and the cart service answer, when
    [authorizePayment] returns an object the vendor's body has status
    [succeeded], an amount identical to the cart total and a currency string
    whose lower case is the cart's currency code; the object is [AUTHORIZED]
    and carries the vendor's id and status. *)
Theorem authorizePayment_authorized_only_if fetch this data ctx c r :
  fst (authorizePayment fetch this data ctx c) = Returned (Some r) ->
  exists res body cart currency,
    fetch (payment_intent_request this (assoc "paymentIntentId" data)) = Returned res
    /\ json res = Returned body
    /\ retrieveWithTotals (cartService this) (assoc "cart_id" ctx) = Returned cart
    /\ get_prop (get_prop (get_prop body "data") "attributes") "status" = VStr "succeeded"
    /\ get_prop (get_prop (get_prop body "data") "attributes") "amount" = VNum (total cart)
    /\ get_prop (get_prop (get_prop body "data") "attributes") "currency" = VStr currency
    /\ toLowerCase currency = currency_code (region cart)
    /\ r = {| auth_status := AUTHORIZED;
              auth_data := [ ("paymentIntentId", get_prop (get_prop body "data") "id");
                             ("paymentStatus", VStr "succeeded") ] |}.
Proof.
  unfold authorizePayment, bind. rewrite fetchPaymongo_request.
  change (paymongo_request this _ _ _)
    with (payment_intent_request this (assoc "paymentIntentId" data)).
  destruct (fetch _) as [res|e0] eqn:Hf; [|discriminate].
  destruct (json res) as [body|e0] eqn:Hj; [|discriminate].
  destruct body as [| | | | | |fields]; try discriminate.
  cbn [get_prop require_object_coercible ret].
  destruct (assoc "data" fields) as [| | | | | |dfields] eqn:Hd; try discriminate.
  cbn [get_prop require_object_coercible ret].
  destruct (assoc "attributes" dfields) as [| | | | | |afields] eqn:Ha; try discriminate;
    cbn [get_prop require_object_coercible ret await];
    (destruct (retrieveWithTotals _ _) as [cart|e0] eqn:Hc; [|discriminate]);
    try discriminate.
  destruct (assoc "currency" afields) as [| | | |currency| |] eqn:Hcur; try discriminate.
  cbn [call_toLowerCase ret].
  destruct (strict_eq (assoc "status" afields) (VStr "succeeded")) eqn:Hs; [|discriminate].
  apply strict_eq_VStr in Hs.
  unfold console_log. cbn [fst].
  destruct (strict_eq (assoc "amount" afields) (VNum (total cart))) eqn:Hamt;
    [|discriminate].
  apply strict_eq_VNum in Hamt.
  destruct (String.eqb (currency_code (region cart)) (toLowerCase currency)) eqn:Hlow;
    [|discriminate].
  apply String.eqb_eq in Hlow.
  cbn. intros H. injection H as <-.
  exists res, (VObj fields), cart, currency. cbn [get_prop].
  rewrite Hd. cbn [get_prop]. rewrite Ha. cbn [get_prop]. rewrite Hs.
  repeat split; auto.
Qed.

Lemma authorizePayment_authorized_only_if_witness :
  fst (authorizePayment (vendor_of paid) (service_of order) session
         [("cart_id", VStr "cart_1")] [])
  = Returned (Some {| auth_status := AUTHORIZED;
                      auth_data := [ ("paymentIntentId", VStr "pi_1");
                                     ("paymentStatus", VStr "succeeded") ] |})
  /\ exists res body cart currency,
       vendor_of paid (payment_intent_request (service_of order)
                         (assoc "paymentIntentId" session)) = Returned res
       /\ json res = Returned body
       /\ retrieveWithTotals (cartService (service_of order))
            (assoc "cart_id" [("cart_id", VStr "cart_1")]) = Returned cart
       /\ get_prop (get_prop (get_prop body "data") "attributes") "status"
          = VStr "succeeded"
       /\ get_prop (get_prop (get_prop body "data") "attributes") "amount"
          = VNum (total cart)
       /\ get_prop (get_prop (get_prop body "data") "attributes") "currency"
          = VStr currency
       /\ toLowerCase currency = currency_code (region cart)
       /\ {| auth_status := AUTHORIZED;
             auth_data := [ ("paymentIntentId", VStr "pi_1");
                            ("paymentStatus", VStr "succeeded") ] |}
          = {| auth_status := AUTHORIZED;
               auth_data := [ ("paymentIntentId", get_prop (get_prop body "data") "id");
                              ("paymentStatus", VStr "succeeded") ] |}.
Proof.
  split; [reflexivity|].
  apply (authorizePayment_authorized_only_if (vendor_of paid) (service_of order) session
           [("cart_id", VStr "cart_1")] []).
  reflexivity.
Defined.


(** X3: for every vendor body whose [data.attributes] is there,
    [getPaymentStatus] returns the status table applied to the raw status
    ([ERROR] when it is not a string) and logs that status once. *)
Theorem getPaymentStatus_raw_table fetch this data c res body :
  fetch (payment_intent_request this (assoc "paymentIntentId" data)) = Returned res ->
  json res = Returned body ->
  nullish (get_prop (get_prop body "data") "attributes") = false ->
  getPaymentStatus fetch this data c =
  (Returned (spec_status_of_value
               (get_prop (get_prop (get_prop body "data") "attributes") "status")),
   (c ++ [ [VStr "called here";
            get_prop (get_prop (get_prop body "data") "attributes") "status"] ])%list).
Proof.
  intros Hf Hj Hn.
  unfold getPaymentStatus, bind. rewrite fetchPaymongo_request.
  change (paymongo_request this _ _ _)
    with (payment_intent_request this (assoc "paymentIntentId" data)).
  rewrite Hf, Hj.
  destruct body as [| | | | | |fields]; try discriminate Hn.
  cbn [get_prop] in Hn. cbn [truthy negb get_prop require_object_coercible ret].
  destruct (assoc "data" fields) as [| | | | | |dfields]; try discriminate Hn.
  cbn [get_prop] in Hn. cbn [get_prop require_object_coercible ret].
  destruct (assoc "attributes" dfields) as [| | | | | |afields]; try discriminate Hn;
    cbn [get_prop require_object_coercible ret]; try reflexivity.
  destruct (assoc "status" afields) as [| | | |s| |]; try reflexivity.
  cbn [strict_eq spec_status_of_value]. unfold spec_session_status.
  destruct (String.eqb s "succeeded"); [reflexivity|].
  destruct (String.eqb s "awaiting_next_action"); [reflexivity|].
  destruct (String.eqb s "awaiting_payment_method"); [reflexivity|].
  destruct (String.eqb s "processing"); reflexivity.
Qed.

Lemma getPaymentStatus_raw_table_witness :
  getPaymentStatus (fun _ => Returned (ok_response no_currency)) (service_of order)
    session []
  = (Returned PENDING, [ [VStr "called here"; VStr "processing"] ]).
Proof.
  apply (getPaymentStatus_raw_table (fun _ => Returned (ok_response no_currency))
           (service_of order) session [] (ok_response no_currency) no_currency).
  - reflexivity.
  - reflexivity.
  - reflexivity.
Defined.

(** X4: on a vendor body that is truthy but has no [data] (an error body),
    [getPaymentStatus] and [authorizePayment] both throw a [TypeError] and log
    nothing. *)
Theorem status_methods_reject_body_without_data fetch this data ctx c res body :
  fetch (payment_intent_request this (assoc "paymentIntentId" data)) = Returned res ->
  json res = Returned body ->
  truthy body = true ->
  nullish (get_prop body "data") = true ->
  (exists msg, getPaymentStatus fetch this data c = (Thrown (TypeError msg), c))
  /\ (exists msg, authorizePayment fetch this data ctx c = (Thrown (TypeError msg), c)).
Proof.
  intros Hf Hj Ht Hn.
  unfold getPaymentStatus, authorizePayment, bind. rewrite !fetchPaymongo_request.
  change (paymongo_request this _ _ _)
    with (payment_intent_request this (assoc "paymentIntentId" data)).
  rewrite Hf, Hj, Ht. cbn [negb].
  destruct body as [| | |n|s|items|fields]; try discriminate Ht;
    cbn [get_prop require_object_coercible ret];
    try (split; eexists; reflexivity).
  cbn [get_prop] in Hn.
  destruct (assoc "data" fields); try discriminate Hn; split; eexists; reflexivity.
Qed.

Lemma status_methods_reject_body_without_data_witness :
  (exists msg,
     getPaymentStatus (fun _ => Returned unauthorized) (service_of order) session []
     = (Thrown (TypeError msg), []))
  /\ (exists msg,
        authorizePayment (fun _ => Returned unauthorized) (service_of order) session
          [("cart_id", VStr "cart_1")] []
        = (Thrown (TypeError msg), [])).
Proof.
  apply (status_methods_reject_body_without_data (fun _ => Returned unauthorized)
           (service_of order) session [("cart_id", VStr "cart_1")] [] unauthorized
           (VObj [ ("errors",
                    VArr [ VObj [ ("code", VStr "authentication_invalid");
                                  ("detail", VStr "The API key is invalid.") ] ]) ])).
  - reflexivity.
  - reflexivity.
  - reflexivity.
  - reflexivity.
Defined.

(** X5: [authorizePayment], [getPaymentStatus] and [retrievePayment] depend
    on the vendor through one request only: [GET payment_intents/<id>] with
    the [Basic] authorization header and no body, [<id>] being the session's
    [paymentIntentId] as a template literal prints it. *)
Theorem status_methods_single_request fetch this data ctx c :
  let only := fun _ : Request =>
    fetch (payment_intent_request this (assoc "paymentIntentId" data)) in
  authorizePayment fetch this data ctx c = authorizePayment only this data ctx c
  /\ getPaymentStatus fetch this data c = getPaymentStatus only this data c
  /\ retrievePayment fetch this data c = retrievePayment only this data c.
Proof.
  intros only.
  unfold authorizePayment, getPaymentStatus, retrievePayment, bind.
  rewrite !fetchPaymongo_request. unfold only. repeat split; reflexivity.
Qed.

(** X6: on every vendor body other than [null], [retrievePayment] returns
    the session data with [paymongoData] set to the body's [data]: every
    other key reads as in the session data, and the returned object is
    logged once. *)
Theorem retrievePayment_adds_paymongoData fetch this data c res body :
  fetch (payment_intent_request this (assoc "paymentIntentId" data)) = Returned res ->
  json res = Returned body ->
  nullish body = false ->
  exists r,
    retrievePayment fetch this data c =
    (Returned r,
     (c ++ [ [VStr "retrievePayment ===>>>> is called outside"; VObj r] ])%list)
    /\ assoc "paymongoData" r = get_prop body "data"
    /\ forall k, k <> "paymongoData" -> assoc k r = assoc k data.
Proof.
  intros Hf Hj Hn.
  exists (set_prop "paymongoData" (get_prop body "data") data).
  split; [|split].
  - unfold retrievePayment, bind. rewrite fetchPaymongo_request.
    change (paymongo_request this _ _ _)
      with (payment_intent_request this (assoc "paymentIntentId" data)).
    rewrite Hf, Hj.
    destruct body; try discriminate Hn; reflexivity.
  - apply assoc_set_prop_eq.
  - intros k Hk. apply assoc_set_prop_ne. exact Hk.
Qed.

Lemma retrievePayment_adds_paymongoData_witness :
  exists r,
    retrievePayment (vendor_of paid) (service_of order)
      [("paymentIntentId", VStr "pi_1"); ("checkout_url", VStr "https://pay")] []
    = (Returned r, [ [VStr "retrievePayment ===>>>> is called outside"; VObj r] ])
    /\ assoc "paymongoData" r = get_prop (payload paid) "data"
    /\ forall k, k <> "paymongoData" ->
         assoc k r
         = assoc k [("paymentIntentId", VStr "pi_1"); ("checkout_url", VStr "https://pay")].
Proof.
  apply (retrievePayment_adds_paymongoData (vendor_of paid) (service_of order)
           [("paymentIntentId", VStr "pi_1"); ("checkout_url", VStr "https://pay")] []
           (ok_response (payload paid)) (payload paid)).
  - reflexivity.
  - reflexivity.
  - reflexivity.
Defined.
(** X7: when the payment intent of the session has status [succeeded],
    [updatePayment] returns no value, logs nothing, and neither reads the cart
    nor opens a checkout session. *)
Theorem updatePayment_succeeded_does_nothing fetch this retrieve context c res body :
  fetch (payment_intent_request this
           (assoc "paymentIntentId" (paymentSessionData context))) = Returned res ->
  json res = Returned body ->
  get_prop (get_prop (get_prop body "data") "attributes") "status" = VStr "succeeded" ->
  updatePayment fetch this retrieve context c = (Returned None, c).
Proof.
  intros Hf Hj Hs.
  unfold updatePayment, bind. rewrite fetchPaymongo_request.
  change (paymongo_request this _ _ _)
    with (payment_intent_request this
            (assoc "paymentIntentId" (paymentSessionData context))).
  rewrite Hf, Hj.
  destruct body as [| | | | | |fields]; try discriminate Hs.
  cbn [get_prop] in Hs. cbn [get_prop require_object_coercible ret].
  destruct (assoc "data" fields) as [| | | | | |dfields]; try discriminate Hs.
  cbn [get_prop] in Hs. cbn [get_prop require_object_coercible ret].
  destruct (assoc "attributes" dfields) as [| | | | | |afields]; try discriminate Hs.
  cbn [get_prop] in Hs. cbn [get_prop require_object_coercible ret].
  rewrite Hs. reflexivity.
Qed.

Lemma updatePayment_succeeded_does_nothing_witness :
  updatePayment (vendor_of paid) (service_of order) (fun _ => Returned checkout_cart)
    checkout []
  = (Returned None, []).
Proof.
  apply (updatePayment_succeeded_does_nothing (vendor_of paid) (service_of order)
           (fun _ => Returned checkout_cart) checkout []
           (ok_response (payload paid)) (payload paid)).
  - reflexivity.
  - reflexivity.
  - reflexivity.
Defined.

(** X8: when the payment intent of the session has any other status,
    [updatePayment] logs one line and hands back what [initiatePayment] does
    for the same context: a new checkout session, or its failure. *)
Theorem updatePayment_otherwise_initiates fetch this retrieve context c res body :
  fetch (payment_intent_request this
           (assoc "paymentIntentId" (paymentSessionData context))) = Returned res ->
  json res = Returned body ->
  nullish (get_prop (get_prop body "data") "attributes") = false ->
  get_prop (get_prop (get_prop body "data") "attributes") "status" <> VStr "succeeded" ->
  updatePayment fetch this retrieve context c =
  (let (o, c') :=
     initiatePayment fetch this retrieve context
       (c ++ [ [VStr "called here???????????????????????????????????"] ])%list in
   (match o with
    | Returned session => Returned (Some session)
    | Thrown e => Thrown e
    end, c')).
Proof.
  intros Hf Hj Hn Hs.
  assert (Hne : strict_eq
                  (get_prop (get_prop (get_prop body "data") "attributes") "status")
                  (VStr "succeeded") = false).
  { destruct (strict_eq _ _) eqn:E; [|reflexivity].
    apply strict_eq_VStr in E. contradiction. }
  unfold updatePayment, bind. rewrite fetchPaymongo_request.
  change (paymongo_request this _ _ _)
    with (payment_intent_request this
            (assoc "paymentIntentId" (paymentSessionData context))).
  rewrite Hf, Hj.
  destruct body as [| | | | | |fields]; try discriminate Hn.
  cbn [get_prop] in Hn, Hne. cbn [get_prop require_object_coercible ret].
  destruct (assoc "data" fields) as [| | | | | |dfields]; try discriminate Hn.
  cbn [get_prop] in Hn, Hne. cbn [get_prop require_object_coercible ret].
  destruct (assoc "attributes" dfields) as [| | | | | |afields]; try discriminate Hn;
    cbn [get_prop require_object_coercible ret] in *; rewrite ?Hne; cbn [negb];
    unfold console_log;
    destruct (initiatePayment _ _ _ _ _) as [[session|e] c']; reflexivity.
Qed.

Lemma updatePayment_otherwise_initiates_witness :
  updatePayment unpaid_vendor (service_of order) (fun _ => Returned checkout_cart)
    checkout []
  = (let (o, c') :=
       initiatePayment unpaid_vendor (service_of order) (fun _ => Returned checkout_cart)
         checkout [ [VStr "called here???????????????????????????????????"] ] in
     (match o with
      | Returned s => Returned (Some s)
      | Thrown e => Thrown e
      end, c')).
Proof.
  apply (updatePayment_otherwise_initiates unpaid_vendor (service_of order)
           (fun _ => Returned checkout_cart) checkout []
           (ok_response (payload unpaid)) (payload unpaid)).
  - reflexivity.
  - reflexivity.
  - reflexivity.
  - discriminate.
Defined.

Example updatePayment_unpaid :
  fst (updatePayment unpaid_vendor (service_of order) (fun _ => Returned checkout_cart)
         checkout [])
  = Returned (Some {| session_data :=
                        [ ("checkout_url", VStr "https://checkout.paymongo.com/cs_1");
                          ("paymentIntentId", VStr "pi_2");
                          ("paymentStatus", VStr "awaiting_payment_method") ] |}).
Proof. reflexivity. Qed.

(** X9: for a cart without a shipping address, or whose address has no
    string country code, [initiatePayment] throws a [TypeError] whatever the
    vendor would answer: no request decides the outcome. *)
Theorem initiatePayment_needs_address this retrieve context c cart :
  retrieve (VStr (resource_id context)) = Returned cart ->
  (shipping_address cart = None
   \/ exists a, shipping_address cart = Some a /\ forall s, country_code a <> VStr s) ->
  exists msg, forall fetch,
    initiatePayment fetch this retrieve context c = (Thrown (TypeError msg), c).
Proof.
  intros Hr [Hnone|(a & Ha & Hcc)]; unfold initiatePayment, bind, await; rewrite Hr.
  - rewrite Hnone. eexists. intros fetch. reflexivity.
  - rewrite Ha. cbn [ret].
    destruct (country_code a) as [| | | |s| |] eqn:E;
      try (eexists; intros fetch; reflexivity).
    exfalso. apply (Hcc s). reflexivity.
Qed.

Lemma initiatePayment_needs_address_witness :
  exists msg, forall fetch,
    initiatePayment fetch (service_of order)
      (fun _ => Returned {| shipping_address := None; email := VStr "ana@example.com";
                            checkout_total := 5000 |})
      checkout []
    = (Thrown (TypeError msg), []).
Proof.
  apply (initiatePayment_needs_address (service_of order)
           (fun _ => Returned {| shipping_address := None;
                                 email := VStr "ana@example.com";
                                 checkout_total := 5000 |})
           checkout []
           {| shipping_address := None; email := VStr "ana@example.com";
              checkout_total := 5000 |}).
  - reflexivity.
  - left. reflexivity.
Defined.

(** X10: when [initiatePayment] returns, the vendor was asked by
    [POST checkout_sessions] with a body whose only line item is the cart
    total in [PHP], and the session data holds the checkout url, the id of the
    embedded payment intent and its status, as the vendor's answer has
    them. *)
Theorem initiatePayment_checkout fetch this retrieve context c r :
  fst (initiatePayment fetch this retrieve context c) = Returned r ->
  exists cart req sent res answer,
    retrieve (VStr (resource_id context)) = Returned cart
    /\ fetch req = Returned res
    /\ url req = "https://api.paymongo.com/v1/checkout_sessions"
    /\ method req = "POST"
    /\ body req = Some sent
    /\ get_prop (get_prop (get_prop sent "data") "attributes") "line_items"
       = VArr [ VObj [ ("currency", VStr "PHP");
                       ("amount", VNum (checkout_total cart));
                       ("name", VStr "Order Total");
                       ("quantity", VNum 1) ] ]
    /\ json res = Returned answer
    /\ session_data r =
       [ ("checkout_url",
          get_prop (get_prop (get_prop answer "data") "attributes") "checkout_url");
         ("paymentIntentId",
          get_prop (get_prop (get_prop (get_prop answer "data") "attributes")
                      "payment_intent") "id");
         ("paymentStatus",
          get_prop (get_prop (get_prop (get_prop (get_prop answer "data") "attributes")
                                "payment_intent") "attributes") "status") ].
Proof.
  unfold initiatePayment, bind, await.
  destruct (retrieve _) as [cart|e0] eqn:Hr; [|discriminate].
  destruct (shipping_address cart) as [a|] eqn:Ha; [|discriminate].
  cbn [ret].
  destruct (country_code a) as [| | | |cc| |] eqn:Hcc; try discriminate.
  cbn [call_toUpperCase ret].
  rewrite fetchPaymongo_request. cbn [truthy default from_option id].
  destruct (fetch _) as [res|e0] eqn:Hf; [|discriminate].
  destruct (json res) as [answer|e0] eqn:Hj; [|discriminate].
  destruct answer as [| | | | | |f1]; try discriminate.
  cbn [get_prop require_object_coercible ret].
  destruct (assoc "data" f1) as [| | | | | |f2] eqn:H2; try discriminate.
  cbn [get_prop require_object_coercible ret].
  destruct (assoc "attributes" f2) as [| | | | | |f3] eqn:H3; try discriminate.
  cbn [get_prop require_object_coercible ret].
  destruct (assoc "payment_intent" f3) as [| | | | | |f4] eqn:H4; try discriminate.
  cbn [get_prop require_object_coercible ret].
  destruct (assoc "attributes" f4) as [| | | | | |f5] eqn:H5; try discriminate;
    cbn [get_prop require_object_coercible ret fst];
    intros H; injection H as <-;
    eexists cart, _, _, res, (VObj f1);
    (split; [reflexivity|]); (split; [exact Hf|]);
    (split; [reflexivity|]); (split; [reflexivity|]); (split; [reflexivity|]);
    (split; [reflexivity|]); (split; [exact Hj|]);
    cbn [get_prop session_data]; rewrite H2; cbn [get_prop]; rewrite H3;
    cbn [get_prop]; rewrite H4; cbn [get_prop]; rewrite ?H5; reflexivity.
Qed.

Lemma initiatePayment_checkout_witness :
  exists cart req sent res answer,
    (fun _ : value => Returned checkout_cart) (VStr (resource_id checkout)) = Returned cart
    /\ unpaid_vendor req = Returned res
    /\ url req = "https://api.paymongo.com/v1/checkout_sessions"
    /\ method req = "POST"
    /\ body req = Some sent
    /\ get_prop (get_prop (get_prop sent "data") "attributes") "line_items"
       = VArr [ VObj [ ("currency", VStr "PHP");
                       ("amount", VNum (checkout_total cart));
                       ("name", VStr "Order Total");
                       ("quantity", VNum 1) ] ]
    /\ json res = Returned answer
    /\ session_data
         {| session_data :=
              [ ("checkout_url", VStr "https://checkout.paymongo.com/cs_1");
                ("paymentIntentId", VStr "pi_2");
                ("paymentStatus", VStr "awaiting_payment_method") ] |} =
       [ ("checkout_url",
          get_prop (get_prop (get_prop answer "data") "attributes") "checkout_url");
         ("paymentIntentId",
          get_prop (get_prop (get_prop (get_prop answer "data") "attributes")
                      "payment_intent") "id");
         ("paymentStatus",
          get_prop (get_prop (get_prop (get_prop (get_prop answer "data") "attributes")
                                "payment_intent") "attributes") "status") ].
Proof.
  apply (initiatePayment_checkout unpaid_vendor (service_of order)
           (fun _ => Returned checkout_cart) checkout []).
  reflexivity.
Defined.
(** X15: [authorizePayment] and [getPaymentStatus] depend on the vendor's
    response through its parsed body only: [ok], [status] and [statusText]
    change nothing. *)
Theorem status_methods_ignore_http_status fetch1 fetch2 this data ctx c res1 res2 :
  fetch1 (payment_intent_request this (assoc "paymentIntentId" data)) = Returned res1 ->
  fetch2 (payment_intent_request this (assoc "paymentIntentId" data)) = Returned res2 ->
  json res1 = json res2 ->
  authorizePayment fetch1 this data ctx c = authorizePayment fetch2 this data ctx c
  /\ getPaymentStatus fetch1 this data c = getPaymentStatus fetch2 this data c.
Proof.
  intros H1 H2 Hj.
  unfold authorizePayment, getPaymentStatus, bind. rewrite !fetchPaymongo_request.
  change (paymongo_request this _ _ _)
    with (payment_intent_request this (assoc "paymentIntentId" data)).
  rewrite H1, H2, Hj. split; reflexivity.
Qed.

Lemma status_methods_ignore_http_status_witness :
  authorizePayment (vendor_of paid) (service_of order) session
    [("cart_id", VStr "cart_1")] []
  = authorizePayment (fun _ => Returned paid_with_500) (service_of order) session
      [("cart_id", VStr "cart_1")] []
  /\ getPaymentStatus (vendor_of paid) (service_of order) session []
     = getPaymentStatus (fun _ => Returned paid_with_500) (service_of order) session [].
Proof.
  apply (status_methods_ignore_http_status (vendor_of paid)
           (fun _ => Returned paid_with_500) (service_of order) session
           [("cart_id", VStr "cart_1")] [] (ok_response (payload paid)) paid_with_500).
  - reflexivity.
  - reflexivity.
  - reflexivity.
Defined.

Example authorizePayment_with_500 :
  result_of (fst (authorizePayment (fun _ => Returned paid_with_500) (service_of order)
                    session [("cart_id", VStr "cart_1")] []))
  = Returned (Some AUTHORIZED).
Proof. reflexivity. Qed.

(** ** The file adapter *)

Import SupabaseFIleService.

(** C10: whatever [fileData] is, [delete] asks the backend to remove the one
    path [assets/34ecd528-0377-4dfa-b3f4-1f3aa9018b8a.jpg]: the storage it
    leaves and its outcome do not depend on [fileData]. *)
Theorem delete_removes_fixed_path (Storage : Type)
    (remove : string -> list string -> Storage -> outcome RemoveReply * Storage)
    (this : SupabaseFIleService) (fileData fileData' : DeleteFileType)
    (st : Storage) (log : list LogEntry) :
  snd (fst (delete Storage remove this fileData st log))
  = snd (remove (bucket this) ["assets/34ecd528-0377-4dfa-b3f4-1f3aa9018b8a.jpg"] st)
  /\ fst (delete Storage remove this fileData st log)
     = fst (delete Storage remove this fileData' st log).
Proof.
  unfold delete.
  destruct (remove (bucket this) ["assets/34ecd528-0377-4dfa-b3f4-1f3aa9018b8a.jpg"] st)
    as [[reply|err] st'].
  - destruct (error reply); split; reflexivity.
  - split; reflexivity.
Qed.

(** Asked to delete [assets/other.png], the adapter leaves it in place and
    removes the fixed object. *)
Example delete_other_key :
  let '(o, st, log) :=
    delete _ memory_remove media (mkDeleteFileType "assets/other.png" []) two_objects [] in
  o = Returned tt
  /\ st = {[ "media" := {[ "assets/other.png" := "png" ]} ]}
  /\ log = [LogInfo "assets/other.png"].
Proof. vm_compute. repeat split; reflexivity. Qed.

(** ** Uploads *)

Lemma split_segments sep s :
  exists segs seg,
    split sep s = (segs ++ [seg])%list
    /\ (forall n, String.get n seg <> Some sep)
    /\ s = List.fold_right (fun x acc => x +:+ String sep acc) seg segs.
Proof.
  induction s as [|ch rest (segs & seg & Hsplit & Hfree & Hcat)].
  - exists [], EmptyString.
    split; [reflexivity|]. split; [|reflexivity]. intros n; destruct n; discriminate.
  - cbn [split]. destruct (Ascii.eqb ch sep) eqn:E.
    + apply Ascii.eqb_eq in E. subst ch.
      exists (EmptyString :: segs), seg. rewrite Hsplit.
      split; [reflexivity|]. split; [exact Hfree|].
      rewrite Hcat at 1. reflexivity.
    + rewrite Hsplit. destruct segs as [|h t]; cbn [app].
      * exists [], (String ch seg).
        split; [reflexivity|]. split.
        -- intros [|n]; cbn.
           ++ intros H. injection H as ->. rewrite Ascii.eqb_refl in E. discriminate.
           ++ apply Hfree.
        -- rewrite Hcat at 1. reflexivity.
      * exists (String ch h :: t), seg.
        split; [reflexivity|]. split; [exact Hfree|].
        rewrite Hcat at 1. reflexivity.
Qed.

Lemma pop_snoc segs seg : pop (segs ++ [seg]) = VStr seg.
Proof.
  unfold pop. rewrite List.map_app. cbn [List.map]. apply List.last_last.
Qed.

Lemma string_app_assoc (a b c : string) : (a +:+ b) +:+ c = a +:+ (b +:+ c).
Proof.
  induction a as [|ch a IH]; [reflexivity|].
  change (String ch ((a +:+ b) +:+ c) = String ch (a +:+ (b +:+ c))).
  rewrite IH. reflexivity.
Qed.

(** X11: the extension put in an upload path, [originalname.split('.').pop()],
    contains no dot and ends the file name; what stands before it is empty (a
    name without a dot is its own extension) or ends in a dot. *)
Theorem extension_last_segment (originalname : string) :
  (forall n, String.get n (extension originalname) <> Some "."%char)
  /\ exists prefix,
       originalname = prefix +:+ extension originalname
       /\ (prefix = "" \/ exists p, prefix = p +:+ ".").
Proof.
  unfold extension.
  destruct (split_segments "." originalname) as (segs & seg & Hsplit & Hfree & Hcat).
  rewrite Hsplit, pop_snoc. cbn [ToString]. split; [exact Hfree|].
  clear Hsplit Hfree. revert originalname Hcat.
  induction segs as [|h t IH]; intros name Hcat; cbn [List.fold_right] in Hcat.
  - exists "". split; [exact Hcat|left; reflexivity].
  - destruct (IH _ eq_refl) as (prefix & Hp & Hend).
    exists (h +:+ String "." prefix). split.
    + rewrite string_app_assoc.
      change (String "." prefix +:+ seg) with (String "." (prefix +:+ seg)).
      rewrite <- Hp. exact Hcat.
    + right. destruct Hend as [->|(p & ->)].
      * exists h. reflexivity.
      * exists (h +:+ String "." p). rewrite string_app_assoc. reflexivity.
Qed.

Example extension_examples :
  extension "holiday.photo.JPG" = "JPG"
  /\ extension "README" = "README"
  /\ extension "archive." = ""
  /\ extension "" = "".
Proof. repeat split; reflexivity. Qed.

(** X12: [upload] returns exactly when the backend, asked to store under
    [assets/<uuid>.<extension>], reports no error and a path; the key is that
    path and the url is [<storageUrl>/<bucket>/<path>]. *)
Theorem upload_returns_iff (Storage : Type)
    (storage_upload :
       string -> string -> string -> string -> Storage -> outcome UploadReply * Storage)
    (this : SupabaseFIleService) (uuid : string) (fileData : MulterFile)
    (st : Storage) (log : list LogEntry) (r : FileServiceUploadResult) :
  fst (fst (upload Storage storage_upload this uuid fileData st log)) = Returned r
  <-> exists reply d,
        fst (storage_upload (bucket this)
               ("assets/" +:+ uuid +:+ "." +:+ extension (originalname fileData))
               (path fileData) (mimetype fileData) st) = Returned reply
        /\ upload_error reply = None
        /\ upload_data reply = Some d
        /\ r = {| key := data_path d;
                  url := storageUrl this +:+ "/" +:+ bucket this +:+ "/" +:+ data_path d |}.
Proof.
  unfold upload.
  destruct (storage_upload _ _ _ _ _) as [[reply|e] st']; cbn [fst].
  - destruct (upload_error reply) as [err|] eqn:He;
      [|destruct (upload_data reply) as [d|] eqn:Hd]; cbn [fst]; split.
    + discriminate.
    + intros (reply' & d & H & Herr & _). injection H as <-. congruence.
    + intros H. injection H as <-. exists reply, d. auto.
    + intros (reply' & d' & H & _ & Hd' & ->). injection H as <-.
      rewrite Hd in Hd'. injection Hd' as <-. reflexivity.
    + discriminate.
    + intros (reply' & d & H & _ & Hd' & _). injection H as <-. congruence.
  - split; [discriminate|]. intros (reply & d & H & _). discriminate.
Qed.

(** X13: [uploadProtected] returns exactly when the backend stores under
    [private/<uuid>.<extension>] without error and then signs the stored path
    for [signedUrlExpiration] seconds without error; the key is the stored
    path and the url the signed one. *)
Theorem uploadProtected_returns_iff (Storage : Type)
    (storage_upload :
       string -> string -> string -> string -> Storage -> outcome UploadReply * Storage)
    (createSignedUrl :
       string -> string -> Z -> Storage -> outcome SignedUrlReply * Storage)
    (this : SupabaseFIleService) (uuid : string) (fileData : MulterFile)
    (st : Storage) (log : list LogEntry) (r : FileServiceUploadResult) :
  fst (fst (uploadProtected Storage storage_upload createSignedUrl this uuid fileData
              st log)) = Returned r
  <-> exists reply d st' signed s,
        storage_upload (bucket this)
          ("private/" +:+ uuid +:+ "." +:+ extension (originalname fileData))
          (path fileData) (mimetype fileData) st = (Returned reply, st')
        /\ upload_error reply = None
        /\ upload_data reply = Some d
        /\ fst (createSignedUrl (bucket this) (data_path d) (signedUrlExpiration this) st')
           = Returned signed
        /\ signed_error signed = None
        /\ signed_data signed = Some s
        /\ r = {| key := data_path d; url := signedUrl s |}.
Proof.
  unfold uploadProtected.
  destruct (storage_upload _ _ _ _ _) as [[reply|e] st'] eqn:Hu; cbn [fst].
  2:{ split; [discriminate|]. intros (? & ? & ? & ? & ? & H & _). discriminate. }
  destruct (upload_error reply) as [err|] eqn:He.
  { split; [discriminate|].
    intros (? & ? & ? & ? & ? & H & Herr & _). injection H as <- <-. congruence. }
  destruct (upload_data reply) as [d|] eqn:Hd.
  2:{ split; [discriminate|].
      intros (? & ? & ? & ? & ? & H & _ & Hd' & _). injection H as <- <-. congruence. }
  destruct (createSignedUrl _ _ _ _) as [[signed|e] st''] eqn:Hs; cbn [fst].
  2:{ split; [discriminate|].
      intros (? & d' & ? & ? & ? & H & _ & Hd' & Hs' & _). injection H as <- <-.
      rewrite Hd in Hd'. injection Hd' as <-. rewrite Hs in Hs'. discriminate. }
  destruct (signed_error signed) as [err|] eqn:Hse.
  { split; [discriminate|].
    intros (? & d' & ? & ? & ? & H & _ & Hd' & Hs' & Hse' & _). injection H as <- <-.
    rewrite Hd in Hd'. injection Hd' as <-. rewrite Hs in Hs'. injection Hs' as <-.
    congruence. }
  destruct (signed_data signed) as [s|] eqn:Hsd; cbn [fst].
  2:{ split; [discriminate|].
      intros (? & d' & ? & ? & ? & H & _ & Hd' & Hs' & _ & Hsd' & _). injection H as <- <-.
      rewrite Hd in Hd'. injection Hd' as <-. rewrite Hs in Hs'. injection Hs' as <-.
      congruence. }
  split.
  - intros H. injection H as <-. exists reply, d, st', signed, s.
    rewrite Hs. auto 10.
  - intros (? & d' & ? & ? & s' & H & _ & Hd' & Hs' & _ & Hsd' & ->). injection H as <- <-.
    rewrite Hd in Hd'. injection Hd' as <-. rewrite Hs in Hs'. injection Hs' as <-.
    rewrite Hsd in Hsd'. injection Hsd' as <-. reflexivity.
Qed.

(** X14: when the backend refuses the upload, [uploadProtected] throws
    [Error uploading file], logs the backend's error and asks for no signed
    url: the storage is as the upload left it. *)
Theorem uploadProtected_refused_upload_skips_signing (Storage : Type)
    (storage_upload :
       string -> string -> string -> string -> Storage -> outcome UploadReply * Storage)
    (createSignedUrl :
       string -> string -> Z -> Storage -> outcome SignedUrlReply * Storage)
    (this : SupabaseFIleService) (uuid : string) (fileData : MulterFile)
    (st st' : Storage) (log : list LogEntry) (reply : UploadReply) (err : StorageError) :
  storage_upload (bucket this)
    ("private/" +:+ uuid +:+ "." +:+ extension (originalname fileData))
    (path fileData) (mimetype fileData) st = (Returned reply, st') ->
  upload_error reply = Some err ->
  uploadProtected Storage storage_upload createSignedUrl this uuid fileData st log
  = (Thrown (Error "Error uploading file"), st', (log ++ [LogError err])%list).
Proof.
  intros Hu He. unfold uploadProtected. rewrite Hu, He. reflexivity.
Qed.

Lemma uploadProtected_refused_upload_skips_signing_witness :
  uploadProtected _ refusing_upload signing media "0b0e7a1c" photo two_objects []
  = (Thrown (Error "Error uploading file"), two_objects,
     [LogError (mkStorageError "Bucket not found")]).
Proof.
  apply (uploadProtected_refused_upload_skips_signing _ refusing_upload signing media
           "0b0e7a1c" photo two_objects two_objects []
           {| upload_data := None;
              upload_error := Some (mkStorageError "Bucket not found") |}
           (mkStorageError "Bucket not found")).
  - reflexivity.
  - reflexivity.
Defined.

Example uploadProtected_photo :
  fst (fst (uploadProtected _ accepting_upload signing media "0b0e7a1c" photo
              two_objects []))
  = Returned {| key := "private/0b0e7a1c.JPG";
                url := "https://signed.example/media/private/0b0e7a1c.JPG?expires=120" |}.
Proof. reflexivity. Qed.

Example upload_photo :
  fst (fst (upload _ accepting_upload media "0b0e7a1c" photo two_objects []))
  = Returned {| key := "assets/0b0e7a1c.JPG";
                url := "http://127.0.0.1:54321/storage/v1/object/public/media/assets/0b0e7a1c.JPG" |}.
Proof. reflexivity. Qed.

(** X16: when the upload succeeds and the signing is refused,
    [uploadProtected] throws [Error getting presigned url] and logs the
    backend's error; the storage is as the two backend calls left it, the
    uploaded object is not taken back. *)
Theorem uploadProtected_signing_failure (Storage : Type)
    (storage_upload :
       string -> string -> string -> string -> Storage -> outcome UploadReply * Storage)
    (createSignedUrl :
       string -> string -> Z -> Storage -> outcome SignedUrlReply * Storage)
    (this : SupabaseFIleService) (uuid : string) (fileData : MulterFile)
    (st st' st'' : Storage) (log : list LogEntry) (reply : UploadReply)
    (d : UploadData) (signed : SignedUrlReply) (err : StorageError) :
  storage_upload (bucket this)
    ("private/" +:+ uuid +:+ "." +:+ extension (originalname fileData))
    (path fileData) (mimetype fileData) st = (Returned reply, st') ->
  upload_error reply = None ->
  upload_data reply = Some d ->
  createSignedUrl (bucket this) (data_path d) (signedUrlExpiration this) st'
  = (Returned signed, st'') ->
  signed_error signed = Some err ->
  uploadProtected Storage storage_upload createSignedUrl this uuid fileData st log
  = (Thrown (Error "Error getting presigned url"), st'', (log ++ [LogError err])%list).
Proof.
  intros Hu He Hd Hs Hse. unfold uploadProtected.
  rewrite Hu, He, Hd, Hs, Hse. reflexivity.
Qed.

Lemma uploadProtected_signing_failure_witness :
  uploadProtected _ accepting_upload refusing_signing media "0b0e7a1c" photo
    two_objects []
  = (Thrown (Error "Error getting presigned url"),
     snd (accepting_upload "media" "private/0b0e7a1c.JPG" "/tmp/upload_1" "image/jpeg"
            two_objects),
     [LogError (mkStorageError "Object not found")]).
Proof.
  apply (uploadProtected_signing_failure _ accepting_upload refusing_signing media
           "0b0e7a1c" photo two_objects
           (snd (accepting_upload "media" "private/0b0e7a1c.JPG" "/tmp/upload_1"
                   "image/jpeg" two_objects))
           (snd (accepting_upload "media" "private/0b0e7a1c.JPG" "/tmp/upload_1"
                   "image/jpeg" two_objects))
           []
           {| upload_data := Some (mkUploadData "private/0b0e7a1c.JPG");
              upload_error := None |}
           (mkUploadData "private/0b0e7a1c.JPG")
           {| signed_data := None;
              signed_error := Some (mkStorageError "Object not found") |}
           (mkStorageError "Object not found")).
  - reflexivity.
  - reflexivity.
  - reflexivity.
  - reflexivity.
  - reflexivity.
Defined.

(** The object uploaded before the failed signing is still in the bucket. *)
Example uploadProtected_signing_failure_keeps_object :
  snd (fst (uploadProtected _ accepting_upload refusing_signing media "0b0e7a1c" photo
              two_objects []))
  !! "media" ≫= (.!! "private/0b0e7a1c.JPG")
  = Some "/tmp/upload_1".
Proof. vm_compute. reflexivity. Qed.

(** X17: [delete] returns exactly when the backend's [remove] resolves
    without an error, whatever [fileData] is and whether or not the backend
    reports removed objects. *)
Theorem delete_returns_iff (Storage : Type)
    (remove : string -> list string -> Storage -> outcome RemoveReply * Storage)
    (this : SupabaseFIleService) (fileData : DeleteFileType)
    (st : Storage) (log : list LogEntry) :
  fst (fst (delete Storage remove this fileData st log)) = Returned tt
  <-> exists reply,
        fst (remove (bucket this) ["assets/34ecd528-0377-4dfa-b3f4-1f3aa9018b8a.jpg"] st)
        = Returned reply
        /\ error reply = None.
Proof.
  unfold delete.
  destruct (remove _ _ _) as [[reply|e] st']; cbn [fst].
  - destruct (error reply) as [err|] eqn:He; cbn [fst]; split.
    + discriminate.
    + intros (reply' & H & He'). injection H as <-. congruence.
    + intros _. exists reply. auto.
    + reflexivity.
  - split; [discriminate|]. intros (reply & H & _). discriminate.
Qed.
